(** * send-many-stx-cli: the [SendMany] command

  A shallow embedding of [src/commands/send-many.ts] and the properties
  of the bulk-transfer command that follow from it.

  The command is a single linear run: it parses the positional tokens,
  resolves a network and a contract identifier, asks the builder for a
  signed transaction and prints or broadcasts it.  The effects of a run
  (lines on standard output, the call of the builder, the submission to
  a node) are recorded as a trace of events, in the order in which the
  code performs them; a thrown error ends the run and keeps the trace
  produced so far.

  A run starts from what [this.parse(SendMany)] returns: the positional
  tokens [argv] and the flags.  The parser itself (required flags, the
  admitted values of [--network], the integer syntax of [--nonce]) belongs
  to the command-line framework and is not part of the embedding. *)

From Stdlib Require Import String Ascii List Bool NArith ZArith Lia.
From Stdlib.Strings Require Import Byte.
Import ListNotations.
Open Scope string_scope.

(** ** JavaScript values and built-ins used by the command *)

Module Js.

(** A thrown [Error]; only its message is observable here. *)
Inductive exn : Type :=
| Error (message : string).

(** [s.split(sep)] for a one-character separator.  The array returned
    by JavaScript is never empty, so it is given as its first piece and
    the list of the pieces after it. *)
Fixpoint split (sep : ascii) (s : string) : string * list string :=
  match s with
  | EmptyString => (EmptyString, [])
  | String c rest =>
      let '(piece, more) := split sep rest in
      if Ascii.eqb c sep then (EmptyString, piece :: more)
      else (String c piece, more)
  end.

(** A value that is a string or [undefined] ([None]). *)
Definition optstring := option string.

(** A value inside a template literal. *)
Definition template (v : optstring) : string :=
  match v with
  | Some s => s
  | None => "undefined"
  end.

(** Truthiness of a string: every string but the empty one. *)
Definition truthy (s : string) : bool :=
  match s with
  | EmptyString => false
  | String _ _ => true
  end.

(** [Buffer.prototype.toString('hex')]: two lowercase digits a byte. *)
Definition hex_digit (n : N) : ascii :=
  match n with
  | 0%N => "0" | 1%N => "1" | 2%N => "2" | 3%N => "3"
  | 4%N => "4" | 5%N => "5" | 6%N => "6" | 7%N => "7"
  | 8%N => "8" | 9%N => "9" | 10%N => "a" | 11%N => "b"
  | 12%N => "c" | 13%N => "d" | 14%N => "e" | _ => "f"
  end%char.

Fixpoint toString_hex (buf : list byte) : string :=
  match buf with
  | [] => EmptyString
  | b :: rest =>
      let n := Byte.to_N b in
      String (hex_digit (n / 16)) (String (hex_digit (n mod 16)) (toString_hex rest))
  end.

(** The characters [0-9a-f]. *)
Definition is_lower_hex (c : ascii) : bool :=
  let n := N_of_ascii c in
  ((48 <=? n) && (n <=? 57) || (97 <=? n) && (n <=? 102))%N.

Fixpoint string_forallb (p : ascii -> bool) (s : string) : bool :=
  match s with
  | EmptyString => true
  | String c rest => p c && string_forallb p rest
  end.

(** Whether a character occurs in a string. *)
Fixpoint occurs (c : ascii) (s : string) : bool :=
  match s with
  | EmptyString => false
  | String d rest => Ascii.eqb d c || occurs c rest
  end.

(** [s.endsWith(suffix)]. *)
Definition endsWith (s suffix : string) : bool :=
  let n := String.length s in
  let k := String.length suffix in
  (k <=? n)%nat && String.eqb (substring (n - k) k s) suffix.

End Js.

Import Js.

(** ** The data of the command *)

(** [ChainID] of [@stacks/transactions]: the two chains a network can
    belong to. *)
Inductive ChainID : Type :=
| Testnet
| Mainnet.

Definition ChainID_eqb (a b : ChainID) : bool :=
  match a, b with
  | Testnet, Testnet | Mainnet, Mainnet => true
  | _, _ => false
  end.

(** The fields of a [StacksNetwork] object that the command reads or
    writes. *)
Record StacksNetwork : Type := {
  chainId : ChainID;
  coreApiUrl : string
}.

(** [network.coreApiUrl = url]. *)
Definition set_coreApiUrl (network : StacksNetwork) (url : string) : StacksNetwork :=
  {| chainId := chainId network; coreApiUrl := url |}.

(** [type NetworkString = 'mocknet' | 'mainnet' | 'testnet'], which is
    also the set of values the [options] of the [network] flag admit. *)
Inductive NetworkString : Type :=
| mocknet
| mainnet
| testnet.

(** [Recipient] of the builder.  [amount] is the second piece of the
    token, which is [undefined] for a token without a comma. *)
Record Recipient : Type := {
  address : string;
  amount : optstring
}.

(** The parsed flags ([help] apart, which never reaches [run]).  The
    flags [broadcast], [network] and [verbose] have defaults, so they are
    always present. *)
Record Flags : Type := {
  privateKey : string;
  broadcast : bool;
  network : NetworkString;
  nodeUrl : option string;
  verbose : bool;
  contractAddress : option string;
  nonce : option Z
}.

(** The argument of the builder's [sendMany].  [sm_nonce] is the optional
    nonce of the request; a call that sets no such property leaves it
    [undefined] ([None]). *)
Record SendManyOptions : Type := {
  sm_recipients : list Recipient;
  sm_network : StacksNetwork;
  sm_senderKey : string;
  sm_contractIdentifier : string;
  sm_nonce : option Z
}.

(** What the node client returns: a transaction identifier, or the error
    payload the node answered with. *)
Inductive TxBroadcastResult (Rejection : Type) : Type :=
| TxId (txid : string)
| Rejected (payload : Rejection).

Arguments TxId {Rejection} txid.
Arguments Rejected {Rejection} payload.

Definition DEFAULT_TESTNET_CONTRACT : string :=
  "STB44HYPYAT2BB2QE513NSP81HTMYWBJP02HPGK6.send-many".

Definition DEFAULT_MAINNET_CONTRACT : string := "not-deployed".

(** ** The collaborators

    Everything [send-many.ts] imports and calls.  Each of [sendMany] and
    [broadcastTransaction] is called at most once in a run, so a function
    of the arguments describes any behaviour it can have in that run;
    either may throw. *)
Class Collaborators : Type := {
  (** the transaction object the builder returns *)
  StacksTransaction : Type;
  (** the error payload of a rejected submission *)
  Rejection : Type;
  (** [validateStacksAddress] of [@stacks/transactions] *)
  validateStacksAddress : string -> bool;
  (** [isNormalInteger] of [../builder], given the second piece of a token *)
  isNormalInteger : optstring -> bool;
  (** [sendMany] of [../builder] *)
  sendMany : SendManyOptions -> exn + StacksTransaction;
  (** [tx.serialize()] *)
  serialize : StacksTransaction -> list byte;
  (** [broadcastTransaction] of [@stacks/transactions] *)
  broadcastTransaction : StacksTransaction -> StacksNetwork -> exn + TxBroadcastResult Rejection;
  (** how [util.format] prints an error payload *)
  inspect : Rejection -> string;
  (** the endpoint each network class of [@stacks/network] starts with *)
  defaultCoreApiUrl : NetworkString -> string
}.

(** ** Runs with effects *)

Section Run.

Context {ext : Collaborators}.

(** What a run does to the outside, in order. *)
Inductive event : Type :=
| Stdout (line : string)
| CallSendMany (options : SendManyOptions)
| CallBroadcast (tx : StacksTransaction) (network : StacksNetwork).

(** A computation: the events it performed, then the error it threw or
    the value it returned. *)
Definition M (A : Type) : Type := (list event * (exn + A))%type.

Definition ret {A : Type} (a : A) : M A := ([], inr a).

Definition throw {A : Type} (e : exn) : M A := ([], inl e).

Definition bind {A B : Type} (c : M A) (k : A -> M B) : M B :=
  match c with
  | (t, inl e) => (t, inl e)
  | (t, inr a) => let '(t', r) := k a in ((t ++ t')%list, r)
  end.

Definition lift {A : Type} (r : exn + A) : M A := ([], r).

Definition emit (ev : event) : M unit := ([ev], inr tt).

Definition events {A : Type} (c : M A) : list event := fst c.

Definition outcome {A : Type} (c : M A) : exn + A := snd c.

(** The lines a computation wrote to standard output. *)
Fixpoint stdout_of (t : list event) : list string :=
  match t with
  | [] => []
  | Stdout line :: rest => line :: stdout_of rest
  | _ :: rest => stdout_of rest
  end.

(** The submissions a trace holds. *)
Fixpoint broadcasts_of (t : list event) : nat :=
  match t with
  | [] => 0
  | CallBroadcast _ _ :: rest => S (broadcasts_of rest)
  | _ :: rest => broadcasts_of rest
  end.

End Run.

Declare Scope run_scope.
Delimit Scope run_scope with run.
Notation "x <- c ;; k" := (bind c (fun x => k))
  (at level 61, c at next level, right associativity) : run_scope.
Notation "c ;; k" := (bind c (fun _ => k))
  (at level 61, right associativity) : run_scope.
Open Scope run_scope.

(** ** The command *)

Section Command.

Context {ext : Collaborators}.

(** Modelled from the spec: the classes [StacksMainnet], [StacksTestnet]
    and [StacksMocknet] come from [@stacks/network], which is not among
    the sources.  Each is given as the object its constructor makes: a
    preset with a fixed chain identifier (the production chain for
    [mainnet], the test chain for the test networks [testnet] and
    [mocknet]) and a default endpoint. *)
Definition StacksMainnet : StacksNetwork :=
  {| chainId := Mainnet; coreApiUrl := defaultCoreApiUrl mainnet |}.

Definition StacksTestnet : StacksNetwork :=
  {| chainId := Testnet; coreApiUrl := defaultCoreApiUrl testnet |}.

Definition StacksMocknet : StacksNetwork :=
  {| chainId := Testnet; coreApiUrl := defaultCoreApiUrl mocknet |}.

(** The table in [getNetwork]; a missing key reads as [undefined]. *)
Definition networks (key : NetworkString) : option StacksNetwork :=
  match key with
  | mainnet => Some StacksMainnet
  | testnet => Some StacksTestnet
  | mocknet => Some StacksMocknet
  end.

Definition getNetwork (flags : Flags) : option StacksNetwork :=
  networks (network flags).

Definition getContract (network : StacksNetwork) : string :=
  if ChainID_eqb (chainId network) Testnet
  then DEFAULT_TESTNET_CONTRACT
  else DEFAULT_MAINNET_CONTRACT.

(** [const [address, amount] = arg.split(',')]. *)
Definition destructure (arg : string) : string * optstring :=
  let '(first, more) := split "," arg in
  (first, hd_error more).

(** The callback of [argv.map] in [run]. *)
Definition recipient_of_arg (arg : string) : exn + Recipient :=
  let '(address, amount) := destructure arg in
  if negb (validateStacksAddress address) then
    inl (Error (address ++ " is not a valid STX address"))
  else if negb (isNormalInteger amount) then
    inl (Error (template amount ++ " is not a valid integer."))
  else
    inr {| address := address; amount := amount |}.

(** [array.map(f)] for a callback that may throw: left to right, and the
    first throw ends it. *)
Fixpoint array_map {A B : Type} (f : A -> exn + B) (l : list A) : exn + list B :=
  match l with
  | [] => inr []
  | x :: rest =>
      match f x with
      | inl e => inl e
      | inr y =>
          match array_map f rest with
          | inl e => inl e
          | inr ys => inr (y :: ys)
          end
      end
  end.

(** [this.log(message, arg)] with string arguments, and [console.log]. *)
Definition log (message arg : string) : M unit :=
  emit (Stdout (message ++ " " ++ arg)).

Definition console_log (line : string) : M unit :=
  emit (Stdout line).

(** [tx.serialize().toString('hex')]. *)
Definition hex (tx : StacksTransaction) : string :=
  toString_hex (serialize tx).

(** A submission result as [toString] and template literals give it, and
    as [util.format] prints it after the message. *)
Definition result_toString (result : TxBroadcastResult Rejection) : string :=
  match result with
  | TxId txid => txid
  | Rejected _ => "[object Object]"
  end.

Definition result_format (result : TxBroadcastResult Rejection) : string :=
  match result with
  | TxId txid => txid
  | Rejected payload => inspect payload
  end.

Definition call_sendMany (options : SendManyOptions) : M StacksTransaction :=
  emit (CallSendMany options) ;; lift (sendMany options).

Definition call_broadcastTransaction (tx : StacksTransaction) (network : StacksNetwork)
  : M (TxBroadcastResult Rejection) :=
  emit (CallBroadcast tx network) ;; lift (broadcastTransaction tx network).

(** Lines 119 to 126 of [run]: the network object, with its endpoint
    replaced when [flags.nodeUrl] is truthy. *)
Definition resolve_network (flags : Flags) : M StacksNetwork :=
  networkClass <- match getNetwork flags with
                  | Some c => ret c
                  | None => throw (Error "Unable to get network")
                  end ;;
  let network := networkClass in
  ret (match nodeUrl flags with
       | Some url => if truthy url then set_coreApiUrl network url else network
       | None => network
       end).

(** Lines 137 to 157 of [run]. *)
Definition report (flags : Flags) (tx : StacksTransaction) (network : StacksNetwork) : M unit :=
  (if verbose flags then log "Transaction hex:" (hex tx) else ret tt) ;;
  if broadcast flags then
    result <- call_broadcastTransaction tx network ;;
    if verbose flags then
      log "Transaction ID:" (result_format result) ;;
      let explorerLink := "https://explorer.stacks.co/txid/0x" ++ result_toString result in
      log "View in explorer:"
          (explorerLink ++ "?chain="
             ++ (if ChainID_eqb (chainId network) Mainnet then "mainnet" else "testnet"))
    else
      console_log (result_toString result)
  else
    console_log (hex tx).

Definition run (argv : list string) (flags : Flags) : M unit :=
  recipients <- lift (array_map recipient_of_arg argv) ;;
  network <- resolve_network flags ;;
  let contractIdentifier := getContract network in
  tx <- call_sendMany {| sm_recipients := recipients;
                         sm_network := network;
                         sm_senderKey := privateKey flags;
                         sm_contractIdentifier := contractIdentifier;
                         sm_nonce := None |} ;;
  report flags tx network.

(** The object literal [run] passes to [sendMany]. *)
Definition request (flags : Flags) (recipients : list Recipient) (n : StacksNetwork)
  : SendManyOptions :=
  {| sm_recipients := recipients;
     sm_network := n;
     sm_senderKey := privateKey flags;
     sm_contractIdentifier := getContract n;
     sm_nonce := None |}.

(** How far a run gets. *)
Inductive progress (argv : list string) (flags : Flags) : Type :=
| StoppedAtRecipients (e : exn)
    (Hmap : array_map recipient_of_arg argv = inl e)
    (Hrun : run argv flags = ([], inl e))
| StoppedAtSendMany (recipients : list Recipient) (n : StacksNetwork) (e : exn)
    (Hmap : array_map recipient_of_arg argv = inr recipients)
    (Hnet : resolve_network flags = ret n)
    (Hsend : sendMany (request flags recipients n) = inl e)
    (Hrun : run argv flags = ([CallSendMany (request flags recipients n)], inl e))
| Assembled (recipients : list Recipient) (n : StacksNetwork) (tx : StacksTransaction)
    (Hmap : array_map recipient_of_arg argv = inr recipients)
    (Hnet : resolve_network flags = ret n)
    (Hsend : sendMany (request flags recipients n) = inr tx)
    (Hrun : run argv flags =
              (CallSendMany (request flags recipients n) :: events (report flags tx n),
               outcome (report flags tx n))).

End Command.

(** ** Flags with one option changed or left out *)

Definition with_contractAddress (flags : Flags) (c : option string) : Flags :=
  {| privateKey := privateKey flags; broadcast := broadcast flags;
     network := network flags; nodeUrl := nodeUrl flags;
     verbose := verbose flags; contractAddress := c; nonce := nonce flags |}.

Definition with_nonce (flags : Flags) (n : option Z) : Flags :=
  {| privateKey := privateKey flags; broadcast := broadcast flags;
     network := network flags; nodeUrl := nodeUrl flags;
     verbose := verbose flags; contractAddress := contractAddress flags;
     nonce := n |}.

Definition with_nodeUrl (flags : Flags) (u : option string) : Flags :=
  {| privateKey := privateKey flags; broadcast := broadcast flags;
     network := network flags; nodeUrl := u;
     verbose := verbose flags; contractAddress := contractAddress flags;
     nonce := nonce flags |}.

(** ** A concrete set of collaborators

    Used to run the command on concrete command lines. *)

Module Sample.

Definition is_digit (c : ascii) : bool :=
  let n := N_of_ascii c in ((48 <=? n) && (n <=? 57))%N.

(** Modelled from the spec: [isNormalInteger] lives in [../builder],
    which is not among the sources.  It accepts one or more decimal
    digits with no leading zero, the single digit ["0"] apart; no sign,
    no decimal point, no other character, not the empty string. *)
Definition isNormalInteger (v : optstring) : bool :=
  match v with
  | None => false
  | Some EmptyString => false
  | Some (String c rest) =>
      string_forallb is_digit (String c rest)
      && (negb (Ascii.eqb c "0") || String.eqb rest EmptyString)
  end.

(** A stand-in for the address check: the shape of an address, without
    its checksum. *)
Definition validateStacksAddress (s : string) : bool :=
  String.prefix "S" s
  && (39 <=? String.length s)%nat && (String.length s <=? 41)%nat.

(** What the node does with a submission. *)
Inductive node : Type :=
| accepting
| rejecting
| unreachable.

Definition submit (n : node) : exn + TxBroadcastResult string :=
  match n with
  | accepting => inr (TxId "5e0a2c7f")
  | rejecting => inr (Rejected "transaction rejected")
  | unreachable => inl (Error "Failed to broadcast transaction")
  end.

(** A transaction is the request it was built from; every transaction
    serializes to the same four bytes. *)
Definition collaborators (n : node) : Collaborators :=
  Build_Collaborators
    (* StacksTransaction *) SendManyOptions
    (* Rejection *) string
    validateStacksAddress
    isNormalInteger
    (* sendMany *) (fun options => inr options)
    (* serialize *) (fun _ => [x80; x00; xab; x1f])
    (* broadcastTransaction *) (fun _ _ => submit n)
    (* inspect *) (fun payload => "{ error: '" ++ payload ++ "' }")
    (* defaultCoreApiUrl *)
    (fun name =>
       match name with
       | mainnet => "https://core.blockstack.org"
       | testnet => "https://stacks-node-api.testnet.stacks.co"
       | mocknet => "http://localhost:3999"
       end).

Definition alice : string := "STADMRP577SC3MCNP7T3PRSTZBJ75FJ59JGABZTW".

Definition bob : string := "ST2WPFYAW85A0YK9ACJR8JGWPM19VWYF90J8P5ZTH".

(** [<alice>,100 <bob>,50 -k my_private_key]. *)
Definition argv : list string := [alice ++ ",100"; bob ++ ",50"].

Definition flags : Flags :=
  {| privateKey := "my_private_key"; broadcast := false; network := testnet;
     nodeUrl := None; verbose := false; contractAddress := None; nonce := None |}.

Definition with_broadcast (f : Flags) : Flags :=
  {| privateKey := privateKey f; broadcast := true; network := network f;
     nodeUrl := nodeUrl f; verbose := verbose f;
     contractAddress := contractAddress f; nonce := nonce f |}.

Definition with_verbose (f : Flags) : Flags :=
  {| privateKey := privateKey f; broadcast := broadcast f; network := network f;
     nodeUrl := nodeUrl f; verbose := true;
     contractAddress := contractAddress f; nonce := nonce f |}.

Definition with_network (f : Flags) (name : NetworkString) : Flags :=
  {| privateKey := privateKey f; broadcast := broadcast f; network := name;
     nodeUrl := nodeUrl f; verbose := verbose f;
     contractAddress := contractAddress f; nonce := nonce f |}.

End Sample.

(** ** Further observations on tokens and traces *)

(** [[first, ...more].join(sep)] for a one-character separator: the
    inverse of [split]. *)
Fixpoint join (sep : ascii) (first : string) (more : list string) : string :=
  match more with
  | [] => first
  | piece :: rest => first ++ String sep (join sep piece rest)
  end.

(** The record the callback of [argv.map] returns for a token that
    passes both checks. *)
Definition recipient_of_pieces (arg : string) : Recipient :=
  {| address := fst (destructure arg); amount := snd (destructure arg) |}.

(** Collaborators whose builder refuses every request. *)
Definition collaborators_builder_fails : Collaborators :=
  Build_Collaborators
    (* StacksTransaction *) SendManyOptions
    (* Rejection *) string
    Sample.validateStacksAddress
    Sample.isNormalInteger
    (* sendMany *) (fun _ => inl (Error "Improperly formatted private-key"))
    (* serialize *) (fun _ => [x80; x00; xab; x1f])
    (* broadcastTransaction *) (fun _ _ => Sample.submit Sample.accepting)
    (* inspect *) (fun payload => payload)
    (* defaultCoreApiUrl *) (fun _ => "http://localhost:3999").

Section Counting.

Context {ext : Collaborators}.

(** The calls of the builder a trace holds. *)
Fixpoint sendManys_of (t : list event) : nat :=
  match t with
  | [] => 0
  | CallSendMany _ :: rest => S (sendManys_of rest)
  | _ :: rest => sendManys_of rest
  end.

End Counting.

(** ** Facts about the built-ins *)

Lemma split_without_sep (sep : ascii) (s : string) :
  occurs sep s = false -> split sep s = (s, []).
Proof.
  induction s as [|c s IH]; simpl; intros H.
  - reflexivity.
  - apply orb_false_elim in H as [Hc Hs].
    rewrite (IH Hs), Hc. reflexivity.
Qed.

Lemma split_at_first_sep (sep : ascii) (a b : string) :
  occurs sep a = false ->
  split sep (a ++ String sep b) = (a, fst (split sep b) :: snd (split sep b)).
Proof.
  induction a as [|c a IH]; simpl; intros H.
  - destruct (split sep b) as [piece more]. rewrite Ascii.eqb_refl. reflexivity.
  - apply orb_false_elim in H as [Hc Ha].
    rewrite (IH Ha), Hc. reflexivity.
Qed.

Lemma hex_digit_lower (n : N) : is_lower_hex (hex_digit n) = true.
Proof.
  destruct n as [|p]; [reflexivity|].
  do 4 (destruct p as [p|p|]; try reflexivity).
Qed.

Lemma toString_hex_lower (buf : list byte) :
  string_forallb is_lower_hex (toString_hex buf) = true.
Proof.
  induction buf as [|b buf IH]; simpl.
  - reflexivity.
  - rewrite !hex_digit_lower, IH. reflexivity.
Qed.

Lemma toString_hex_length (buf : list byte) :
  String.length (toString_hex buf) = 2 * List.length buf.
Proof.
  induction buf as [|b buf IH]; simpl; [reflexivity | rewrite IH; lia].
Qed.

Lemma substring_skip (a b : string) :
  substring (String.length a) (String.length b) (a ++ b) = b.
Proof.
  induction a as [|c a IH]; simpl.
  - induction b as [|d b IHb]; simpl; [reflexivity|].
    rewrite IHb. reflexivity.
  - exact IH.
Qed.

Lemma length_append (a b : string) :
  String.length (a ++ b) = String.length a + String.length b.
Proof.
  induction a as [|c a IH]; simpl; [reflexivity | rewrite IH; reflexivity].
Qed.

Lemma endsWith_append (a b : string) : endsWith (a ++ b) b = true.
Proof.
  unfold endsWith. rewrite length_append.
  replace (String.length a + String.length b - String.length b)
    with (String.length a) by lia.
  rewrite substring_skip, String.eqb_refl, andb_true_r.
  apply Nat.leb_le. lia.
Qed.

Lemma append_assoc (a b c : string) : (a ++ b) ++ c = a ++ (b ++ c).
Proof.
  induction a as [|x a IH]; simpl; [reflexivity | rewrite IH; reflexivity].
Qed.

(** ** The shape of a run *)

Section Shape.

Context {ext : Collaborators}.

Lemma array_map_length {A B : Type} (f : A -> exn + B) (l : list A) (r : list B) :
  array_map f l = inr r -> List.length r = List.length l.
Proof.
  revert r. induction l as [|x l IH]; simpl; intros r H.
  - injection H as <-. reflexivity.
  - destruct (f x) as [e|y]; [discriminate|].
    destruct (array_map f l) as [e|ys]; [discriminate|].
    injection H as <-. simpl. rewrite (IH ys eq_refl). reflexivity.
Qed.

(** The lookup in [getNetwork] finds a class for every name, so [run]
    never throws its network error, and the object it goes on with is the
    preset with at most its endpoint replaced. *)
Lemma resolve_network_returns (flags : Flags) :
  exists preset,
    networks (network flags) = Some preset /\
    resolve_network flags =
      ret (match nodeUrl flags with
           | Some url => if truthy url then set_coreApiUrl preset url else preset
           | None => preset
           end).
Proof.
  unfold resolve_network, getNetwork.
  destruct (network flags); simpl; eexists; split; reflexivity.
Qed.

Lemma resolve_network_chainId (flags : Flags) (n : StacksNetwork) :
  resolve_network flags = ret n ->
  chainId n = match network flags with
              | mainnet => Mainnet
              | testnet | mocknet => Testnet
              end.
Proof.
  destruct (resolve_network_returns flags) as (preset & Hp & ->).
  unfold ret. intros H. injection H as <-.
  assert (chainId preset = match network flags with
                           | mainnet => Mainnet
                           | testnet | mocknet => Testnet
                           end) as <-
    by (destruct (network flags); injection Hp as <-; reflexivity).
  destruct (nodeUrl flags) as [url|]; [destruct (truthy url)|]; reflexivity.
Qed.

Lemma run_progress (argv : list string) (flags : Flags) : progress argv flags.
Proof.
  destruct (array_map recipient_of_arg argv) as [e|recipients] eqn:Hmap.
  - apply (StoppedAtRecipients argv flags e Hmap).
    unfold run. rewrite Hmap. reflexivity.
  - assert ({n | resolve_network flags = ret n}) as [n Hnet].
    { unfold resolve_network, getNetwork.
      destruct (network flags); simpl; eexists; reflexivity. }
    destruct (sendMany (request flags recipients n)) as [e|tx] eqn:Hsend.
    + apply (StoppedAtSendMany argv flags recipients n e Hmap Hnet Hsend).
      unfold run. rewrite Hmap, Hnet. unfold request in Hsend.
      unfold call_sendMany, lift, emit, bind, ret. simpl.
      rewrite Hsend. reflexivity.
    + apply (Assembled argv flags recipients n tx Hmap Hnet Hsend).
      unfold run. rewrite Hmap, Hnet. unfold request in Hsend.
      unfold call_sendMany, lift, emit, bind, ret. simpl.
      rewrite Hsend. destruct (report flags tx n) as [t r]. reflexivity.
Qed.

(** The events and the outcome of the reporting part, case by case. *)
Lemma report_quiet_print (flags : Flags) (tx : StacksTransaction) (n : StacksNetwork) :
  verbose flags = false -> broadcast flags = false ->
  report flags tx n = ([Stdout (hex tx)], inr tt).
Proof.
  intros Hv Hb. unfold report. rewrite Hv, Hb. reflexivity.
Qed.

Lemma report_verbose_print (flags : Flags) (tx : StacksTransaction) (n : StacksNetwork) :
  verbose flags = true -> broadcast flags = false ->
  report flags tx n =
    ([Stdout ("Transaction hex: " ++ hex tx); Stdout (hex tx)], inr tt).
Proof.
  intros Hv Hb. unfold report. rewrite Hv, Hb. reflexivity.
Qed.

Lemma report_broadcast_throws (flags : Flags) (tx : StacksTransaction) (n : StacksNetwork)
    (e : exn) :
  broadcast flags = true -> broadcastTransaction tx n = inl e ->
  report flags tx n =
    ((if verbose flags then [Stdout ("Transaction hex: " ++ hex tx)] else [])
       ++ [CallBroadcast tx n], inl e)%list.
Proof.
  intros Hb He. unfold report, call_broadcastTransaction. rewrite Hb.
  unfold lift, emit, bind, log, emit. rewrite He.
  destruct (verbose flags); reflexivity.
Qed.

Lemma report_broadcast_returns (flags : Flags) (tx : StacksTransaction) (n : StacksNetwork)
    (result : TxBroadcastResult Rejection) :
  broadcast flags = true -> broadcastTransaction tx n = inr result ->
  report flags tx n =
    (if verbose flags then
       [Stdout ("Transaction hex: " ++ hex tx);
        CallBroadcast tx n;
        Stdout ("Transaction ID: " ++ result_format result);
        Stdout ("View in explorer: "
                  ++ ("https://explorer.stacks.co/txid/0x" ++ result_toString result)
                  ++ "?chain="
                  ++ (if ChainID_eqb (chainId n) Mainnet then "mainnet" else "testnet"))]
     else
       [CallBroadcast tx n; Stdout (result_toString result)],
     inr tt).
Proof.
  intros Hb Hr. unfold report, call_broadcastTransaction. rewrite Hb.
  unfold lift, emit, bind, log, console_log, emit. rewrite Hr.
  destruct (verbose flags); reflexivity.
Qed.

(** The reporting part calls the builder never and the node at most once,
    with the transaction and the network it was given. *)
Lemma report_no_sendMany (flags : Flags) (tx : StacksTransaction) (n : StacksNetwork)
    (options : SendManyOptions) :
  ~ In (CallSendMany options) (events (report flags tx n)).
Proof.
  destruct (broadcast flags) eqn:Hb.
  - destruct (broadcastTransaction tx n) as [e|result] eqn:Hr.
    + rewrite (report_broadcast_throws flags tx n e Hb Hr).
      destruct (verbose flags); simpl; intuition discriminate.
    + rewrite (report_broadcast_returns flags tx n result Hb Hr).
      destruct (verbose flags); simpl; intuition discriminate.
  - destruct (verbose flags) eqn:Hv.
    + rewrite (report_verbose_print flags tx n Hv Hb). simpl. intuition discriminate.
    + rewrite (report_quiet_print flags tx n Hv Hb). simpl. intuition discriminate.
Qed.

Lemma report_broadcast_event (flags : Flags) (tx tx' : StacksTransaction)
    (n n' : StacksNetwork) :
  In (CallBroadcast tx' n') (events (report flags tx n)) ->
  tx' = tx /\ n' = n /\ broadcast flags = true.
Proof.
  destruct (broadcast flags) eqn:Hb.
  - destruct (broadcastTransaction tx n) as [e|result] eqn:Hr.
    + rewrite (report_broadcast_throws flags tx n e Hb Hr).
      destruct (verbose flags); simpl; intros H;
        repeat (destruct H as [H|H]; try discriminate; try contradiction);
        injection H as <- <-; auto.
    + rewrite (report_broadcast_returns flags tx n result Hb Hr).
      destruct (verbose flags); simpl; intros H;
        repeat (destruct H as [H|H]; try discriminate; try contradiction);
        injection H as <- <-; auto.
  - destruct (verbose flags) eqn:Hv.
    + rewrite (report_verbose_print flags tx n Hv Hb). simpl. intuition discriminate.
    + rewrite (report_quiet_print flags tx n Hv Hb). simpl. intuition discriminate.
Qed.

(** A call of the builder in a run is the one call [run] makes. *)
Lemma run_sendMany_event (argv : list string) (flags : Flags) (options : SendManyOptions) :
  In (CallSendMany options) (events (run argv flags)) ->
  exists recipients n,
    array_map recipient_of_arg argv = inr recipients /\
    resolve_network flags = ret n /\
    options = request flags recipients n.
Proof.
  destruct (run_progress argv flags) as [e Hmap Hrun | rs n e Hmap Hnet Hsend Hrun
                                        | rs n tx Hmap Hnet Hsend Hrun];
    rewrite Hrun; simpl.
  - contradiction.
  - intros [H|[]]. injection H as <-. exists rs, n. auto.
  - intros [H|H].
    + injection H as <-. exists rs, n. auto.
    + exfalso. exact (report_no_sendMany flags tx n options H).
Qed.

(** A submission in a run is made after the builder returned, with its
    transaction. *)
Lemma run_broadcast_event (argv : list string) (flags : Flags)
    (tx : StacksTransaction) (n : StacksNetwork) :
  In (CallBroadcast tx n) (events (run argv flags)) ->
  exists recipients,
    array_map recipient_of_arg argv = inr recipients /\
    resolve_network flags = ret n /\
    sendMany (request flags recipients n) = inr tx /\
    broadcast flags = true /\
    run argv flags =
      (CallSendMany (request flags recipients n) :: events (report flags tx n),
       outcome (report flags tx n)).
Proof.
  destruct (run_progress argv flags) as [e Hmap Hrun | rs n0 e Hmap Hnet Hsend Hrun
                                        | rs n0 tx0 Hmap Hnet Hsend Hrun];
    rewrite Hrun; simpl.
  - contradiction.
  - intros [H|[]]. discriminate.
  - intros [H|H]; [discriminate|].
    apply report_broadcast_event in H as (-> & -> & Hb).
    exists rs. auto.
Qed.

End Shape.

(** ** The contract identifier and the nonce of the request *)

Section Request.

Context {ext : Collaborators}.

Lemma request_contract (flags : Flags) (recipients : list Recipient) (n : StacksNetwork) :
  resolve_network flags = ret n ->
  sm_contractIdentifier (request flags recipients n) =
    match network flags with
    | mainnet => "not-deployed"
    | testnet | mocknet => "STB44HYPYAT2BB2QE513NSP81HTMYWBJP02HPGK6.send-many"
    end.
Proof.
  intros Hn. apply resolve_network_chainId in Hn.
  unfold request, getContract. simpl. rewrite Hn.
  destruct (network flags); reflexivity.
Qed.

(** C1, as the code has it: the contract identifier of the request that
    reaches the builder is the default contract of the resolved network,
    and [--contractAddress] changes nothing in a run, although the flag
    is declared to set the contract by hand. *)
Theorem contractAddress_flag_unused (argv : list string) (flags : Flags)
    (options : SendManyOptions) :
  In (CallSendMany options) (events (run argv flags)) ->
  sm_contractIdentifier options = getContract (sm_network options)
  /\ forall c, run argv (with_contractAddress flags c) = run argv flags.
Proof.
  intros H. split; [|reflexivity].
  apply run_sendMany_event in H as (rs & n & _ & _ & ->).
  reflexivity.
Qed.

(** C2, as the code has it: the request that reaches the builder carries
    no nonce, and [--nonce] changes nothing in a run, although the flag
    is declared to set the nonce of the transaction. *)
Theorem nonce_flag_unused (argv : list string) (flags : Flags)
    (options : SendManyOptions) :
  In (CallSendMany options) (events (run argv flags)) ->
  sm_nonce options = None
  /\ forall n, run argv (with_nonce flags n) = run argv flags.
Proof.
  intros H. split; [|reflexivity].
  apply run_sendMany_event in H as (rs & n & _ & _ & ->).
  reflexivity.
Qed.

End Request.

(** The command line
    [<alice>,100 <bob>,50 -k my_private_key -c SP3FBR2AGK5H9QBDH3EEN6DF8EK8JY7RX8QJ5SVTE.send-many]
    on the default network: the builder is asked for a call of the
    testnet default contract. *)
Lemma contractAddress_flag_unused_witness :
  let flags := with_contractAddress Sample.flags
                 (Some "SP3FBR2AGK5H9QBDH3EEN6DF8EK8JY7RX8QJ5SVTE.send-many") in
  let run := @run (Sample.collaborators Sample.accepting) Sample.argv flags in
  exists options,
    In (CallSendMany options) (events run) /\
    sm_contractIdentifier options
      = "STB44HYPYAT2BB2QE513NSP81HTMYWBJP02HPGK6.send-many".
Proof.
  intros flags run.
  assert (exists options, In (CallSendMany options) (events run)) as [options H]
    by (eexists; left; reflexivity).
  exists options. split; [exact H|].
  rewrite (proj1 (@contractAddress_flag_unused (Sample.collaborators Sample.accepting)
                    Sample.argv flags options H)).
  destruct H as [H|[H|[]]]; [|discriminate H].
  injection H as <-. reflexivity.
Defined.

(** The command line [<alice>,100 <bob>,50 -k my_private_key --nonce 7]:
    the request holds no nonce. *)
Lemma nonce_flag_unused_witness :
  let flags := with_nonce Sample.flags (Some 7%Z) in
  let run := @run (Sample.collaborators Sample.accepting) Sample.argv flags in
  nonce flags = Some 7%Z /\
  exists options,
    In (CallSendMany options) (events run) /\ sm_nonce options = None.
Proof.
  intros flags run. split; [reflexivity|].
  assert (exists options, In (CallSendMany options) (events run)) as [options H]
    by (eexists; left; reflexivity).
  exists options. split; [exact H|].
  exact (proj1 (@nonce_flag_unused (Sample.collaborators Sample.accepting)
                  Sample.argv flags options H)).
Defined.

(** ** Tokens *)

Section Tokens.

Context {ext : Collaborators}.

Lemma destructure_without_comma (a : string) :
  occurs "," a = false -> destructure a = (a, None).
Proof.
  intros Ha. unfold destructure. rewrite (split_without_sep _ _ Ha). reflexivity.
Qed.

Lemma destructure_one_comma (a b : string) :
  occurs "," a = false -> occurs "," b = false ->
  destructure (a ++ String "," b) = (a, Some b).
Proof.
  intros Ha Hb. unfold destructure.
  rewrite (split_at_first_sep _ _ _ Ha), (split_without_sep _ _ Hb). reflexivity.
Qed.

Lemma destructure_more_commas (a b rest : string) :
  occurs "," a = false -> occurs "," b = false ->
  destructure (a ++ String "," (b ++ String "," rest)) = (a, Some b).
Proof.
  intros Ha Hb. unfold destructure.
  rewrite (split_at_first_sep _ _ _ Ha), (split_at_first_sep _ _ _ Hb). reflexivity.
Qed.

(** C3, amended: a token is split on every comma; the address is the text
    before the first comma and the amount is the text between the first
    and the second comma (up to the end when there is one comma only,
    [undefined] when there is none).  What follows a second comma is
    dropped, so a token [a,b,rest] is validated, and accepted, as the
    token [a,b] is. *)
Theorem destructure_pieces (a b rest : string) :
  occurs "," a = false -> occurs "," b = false ->
  destructure a = (a, None)
  /\ destructure (a ++ "," ++ b) = (a, Some b)
  /\ destructure (a ++ "," ++ b ++ "," ++ rest) = (a, Some b)
  /\ recipient_of_arg (a ++ "," ++ b ++ "," ++ rest) = recipient_of_arg (a ++ "," ++ b)
  /\ (validateStacksAddress a = true -> isNormalInteger (Some b) = true ->
      recipient_of_arg (a ++ "," ++ b ++ "," ++ rest)
        = inr {| address := a; amount := Some b |}).
Proof.
  intros Ha Hb.
  pose proof (destructure_without_comma a Ha) as H0.
  pose proof (destructure_one_comma a b Ha Hb) as H1.
  pose proof (destructure_more_commas a b rest Ha Hb) as H2.
  change (a ++ "," ++ b) with (a ++ String "," b).
  change (a ++ "," ++ b ++ "," ++ rest) with (a ++ String "," (b ++ String "," rest)).
  repeat split; try assumption.
  - unfold recipient_of_arg. rewrite H1, H2. reflexivity.
  - intros Hv Hi. unfold recipient_of_arg. rewrite H2, Hv, Hi. reflexivity.
Qed.

End Tokens.

Lemma destructure_pieces_witness :
  @recipient_of_arg (Sample.collaborators Sample.accepting)
    (Sample.alice ++ "," ++ "100" ++ "," ++ "extra")
  = inr {| address := Sample.alice; amount := Some "100" |}.
Proof.
  apply (@destructure_pieces (Sample.collaborators Sample.accepting)
           Sample.alice "100" "extra"); reflexivity.
Defined.

(** C3 as stated fails: the amount of a token with two commas is the
    text between them, not all that follows the first, and the token
    passes the amount check. *)
Lemma amount_is_second_piece :
  snd (destructure "ADDR,100,extra") = Some "100"
  /\ snd (destructure "ADDR,100,extra") <> Some "100,extra"
  /\ Sample.isNormalInteger (snd (destructure "ADDR,100,extra")) = true
  /\ @recipient_of_arg (Sample.collaborators Sample.accepting)
       "STADMRP577SC3MCNP7T3PRSTZBJ75FJ59JGABZTW,100,extra"
     = inr {| address := "STADMRP577SC3MCNP7T3PRSTZBJ75FJ59JGABZTW";
              amount := Some "100" |}.
Proof.
  repeat split; try reflexivity. discriminate.
Qed.

(** ** Recipients and submissions *)

Section Submission.

Context {ext : Collaborators}.

(** C5, amended: the request that reaches the builder holds one recipient
    for each positional token, in the order of the tokens; it is
    non-empty exactly when there is a token.  A command line without
    tokens is not refused: the builder is then called with an empty
    list. *)
Theorem recipients_follow_argv (argv : list string) (flags : Flags)
    (options : SendManyOptions) :
  In (CallSendMany options) (events (run argv flags)) ->
  array_map recipient_of_arg argv = inr (sm_recipients options)
  /\ List.length (sm_recipients options) = List.length argv
  /\ (sm_recipients options = [] <-> argv = []).
Proof.
  intros H. apply run_sendMany_event in H as (rs & n & Hmap & _ & ->). simpl.
  pose proof (array_map_length _ _ _ Hmap) as Hlen.
  repeat split; try assumption.
  - intros ->. destruct argv; [reflexivity | discriminate].
  - intros ->. destruct rs; [reflexivity | discriminate].
Qed.

(** C4, amended: a run that submits does so once.  When the submission
    throws, the run fails with the error thrown, unchanged, and prints
    nothing after the submission.  When the submission returns the error
    payload of the node, the run goes on as for a transaction identifier:
    it prints the payload (labelled, and inside the explorer link, when
    verbose; as [[object Object]] otherwise) and succeeds. *)
Theorem broadcast_failure_paths (argv : list string) (flags : Flags)
    (tx : StacksTransaction) (n : StacksNetwork) :
  In (CallBroadcast tx n) (events (run argv flags)) ->
  broadcasts_of (events (run argv flags)) = 1
  /\ (forall e, broadcastTransaction tx n = inl e ->
        outcome (run argv flags) = inl e
        /\ stdout_of (events (run argv flags))
           = if verbose flags then ["Transaction hex: " ++ hex tx] else [])
  /\ (forall payload, broadcastTransaction tx n = inr (Rejected payload) ->
        outcome (run argv flags) = inr tt
        /\ stdout_of (events (run argv flags))
           = if verbose flags then
               ["Transaction hex: " ++ hex tx;
                "Transaction ID: " ++ inspect payload;
                "View in explorer: https://explorer.stacks.co/txid/0x[object Object]?chain="
                  ++ (if ChainID_eqb (chainId n) Mainnet then "mainnet" else "testnet")]
             else ["[object Object]"]).
Proof.
  intros H.
  apply run_broadcast_event in H as (rs & _ & _ & _ & Hb & ->).
  repeat split.
  - destruct (broadcastTransaction tx n) as [e|result] eqn:Hr.
    + rewrite (report_broadcast_throws flags tx n e Hb Hr).
      destruct (verbose flags); reflexivity.
    + rewrite (report_broadcast_returns flags tx n result Hb Hr).
      destruct (verbose flags); reflexivity.
  - rewrite (report_broadcast_throws flags tx n e Hb H). reflexivity.
  - rewrite (report_broadcast_throws flags tx n e Hb H).
    destruct (verbose flags); reflexivity.
  - rewrite (report_broadcast_returns flags tx n _ Hb H). reflexivity.
  - rewrite (report_broadcast_returns flags tx n _ Hb H).
    destruct (verbose flags); reflexivity.
Qed.

End Submission.

Lemma recipients_follow_argv_witness :
  exists options,
    In (CallSendMany options)
       (events (@run (Sample.collaborators Sample.accepting) Sample.argv Sample.flags))
    /\ List.length (sm_recipients options) = 2.
Proof.
  assert (exists options,
             In (CallSendMany options)
                (events (@run (Sample.collaborators Sample.accepting)
                           Sample.argv Sample.flags))) as [options H]
    by (eexists; left; reflexivity).
  exists options. split; [exact H|].
  exact (proj1 (proj2 (@recipients_follow_argv (Sample.collaborators Sample.accepting)
                         Sample.argv Sample.flags options H))).
Defined.

(** C5 as stated fails: with no positional token the builder is called,
    and its request has no recipient. *)
Lemma builder_called_without_recipients :
  exists options,
    In (CallSendMany options)
       (events (@run (Sample.collaborators Sample.accepting) [] Sample.flags))
    /\ sm_recipients options = [].
Proof.
  eexists. split; [left; reflexivity | reflexivity].
Qed.

Lemma broadcast_failure_paths_witness :
  let run := @run (Sample.collaborators Sample.unreachable) Sample.argv
               (Sample.with_broadcast Sample.flags) in
  broadcasts_of (events run) = 1
  /\ outcome run = inl (Error "Failed to broadcast transaction")
  /\ stdout_of (events run) = [].
Proof.
  intros run.
  assert (exists tx n, In (CallBroadcast tx n) (events run)) as (tx & n & H)
    by (do 2 eexists; right; left; reflexivity).
  destruct (@broadcast_failure_paths (Sample.collaborators Sample.unreachable)
              Sample.argv (Sample.with_broadcast Sample.flags) tx n H)
    as (Hone & Hthrow & _).
  split; [exact Hone|].
  exact (Hthrow (Error "Failed to broadcast transaction") eq_refl).
Defined.

(** C4 as stated fails: the node rejects the transaction, the client
    returns its error payload, and the run prints it as its result and
    succeeds. *)
Lemma rejected_submission_is_printed :
  let run := @run (Sample.collaborators Sample.rejecting) Sample.argv
               (Sample.with_broadcast Sample.flags) in
  (exists tx n payload,
      In (CallBroadcast tx n) (events run)
      /\ @broadcastTransaction (Sample.collaborators Sample.rejecting) tx n
         = inr (Rejected payload))
  /\ outcome run = inr tt
  /\ stdout_of (events run) = ["[object Object]"].
Proof.
  intros run. split; [|split; reflexivity].
  do 3 eexists. split; [right; left; reflexivity | reflexivity].
Qed.

(** ** Networks and contracts *)

Section Resolution.

Context {ext : Collaborators}.

(** C6: the default contract is a function of the chain identifier
    alone; the test chain gives the testnet contract and any other chain
    the mainnet placeholder. *)
Theorem getContract_by_chainId (n n' : StacksNetwork) :
  getContract n =
    match chainId n with
    | Testnet => "STB44HYPYAT2BB2QE513NSP81HTMYWBJP02HPGK6.send-many"
    | Mainnet => "not-deployed"
    end
  /\ (chainId n = chainId n' -> getContract n = getContract n').
Proof.
  split.
  - unfold getContract. destruct (chainId n); reflexivity.
  - intros H. unfold getContract. rewrite H. reflexivity.
Qed.

(** C7: for every network name and every [--nodeUrl], the run gets a
    network object, and it is the one it gets without [--nodeUrl] but for
    the endpoint: the chain identifier is the same, and the endpoint is
    the one supplied (the default one when the supplied string is
    empty). *)
Theorem nodeUrl_keeps_chainId (flags : Flags) (url : string) :
  exists n n0,
    resolve_network (with_nodeUrl flags (Some url)) = ret n
    /\ resolve_network (with_nodeUrl flags None) = ret n0
    /\ chainId n = chainId n0
    /\ coreApiUrl n = (if truthy url then url else coreApiUrl n0)
    /\ n = (if truthy url then set_coreApiUrl n0 url else n0).
Proof.
  destruct (resolve_network_returns (with_nodeUrl flags (Some url))) as (p & Hp & H).
  destruct (resolve_network_returns (with_nodeUrl flags None)) as (p0 & Hp0 & H0).
  simpl in *. rewrite Hp in Hp0. injection Hp0 as <-.
  eexists; eexists. split; [exact H|]. split; [exact H0|].
  destruct (truthy url); repeat split; reflexivity.
Qed.

(** C10: on [mocknet] the network object is on the test chain, so the
    request names the testnet default contract, and the explorer link of
    a verbose broadcast run ends with [chain=testnet]. *)
Theorem mocknet_is_testnet (argv : list string) (flags : Flags) :
  network flags = mocknet ->
  (exists n, resolve_network flags = ret n /\ chainId n = Testnet)
  /\ (forall options, In (CallSendMany options) (events (run argv flags)) ->
        chainId (sm_network options) = Testnet
        /\ sm_contractIdentifier options
           = "STB44HYPYAT2BB2QE513NSP81HTMYWBJP02HPGK6.send-many")
  /\ (verbose flags = true -> broadcast flags = true ->
      outcome (run argv flags) = inr tt ->
      exists link,
        last (stdout_of (events (run argv flags))) "" = "View in explorer: " ++ link
        /\ endsWith link "chain=testnet" = true).
Proof.
  intros Hm.
  assert (forall n, resolve_network flags = ret n -> chainId n = Testnet) as Hchain
    by (intros n Hn; apply resolve_network_chainId in Hn; rewrite Hn, Hm; reflexivity).
  repeat split.
  - destruct (resolve_network_returns flags) as (p & _ & Hn). eauto.
  - apply run_sendMany_event in H as (rs & n & _ & Hn & ->). exact (Hchain n Hn).
  - apply run_sendMany_event in H as (rs & n & _ & Hn & ->).
    rewrite (request_contract flags rs n Hn), Hm. reflexivity.
  - intros Hv Hb.
    destruct (run_progress argv flags) as [e Hmap Hrun | rs n e Hmap Hnet Hsend Hrun
                                          | rs n tx Hmap Hnet Hsend Hrun];
      rewrite Hrun; try discriminate.
    destruct (broadcastTransaction tx n) as [e|result] eqn:Hr.
    + rewrite (report_broadcast_throws flags tx n e Hb Hr). discriminate.
    + rewrite (report_broadcast_returns flags tx n result Hb Hr), Hv, (Hchain n Hnet).
      intros _.
      exists (("https://explorer.stacks.co/txid/0x" ++ result_toString result ++ "?")
                ++ "chain=testnet").
      split; [|apply endsWith_append].
      simpl. rewrite !append_assoc. reflexivity.
Qed.

End Resolution.

Lemma getContract_by_chainId_witness :
  getContract {| chainId := Testnet; coreApiUrl := "http://localhost:3999" |}
  = getContract {| chainId := Testnet; coreApiUrl := "http://localhost:20443" |}.
Proof.
  apply (getContract_by_chainId
           {| chainId := Testnet; coreApiUrl := "http://localhost:3999" |}
           {| chainId := Testnet; coreApiUrl := "http://localhost:20443" |}).
  reflexivity.
Defined.

(** [<alice>,100 <bob>,50 -k my_private_key -n mocknet -b -v] with a node
    that accepts the transaction. *)
Lemma mocknet_is_testnet_witness :
  let run := @run (Sample.collaborators Sample.accepting) Sample.argv
               (Sample.with_verbose (Sample.with_broadcast
                                       (Sample.with_network Sample.flags mocknet))) in
  exists link,
    last (stdout_of (events run)) "" = "View in explorer: " ++ link
    /\ endsWith link "chain=testnet" = true.
Proof.
  intros run.
  apply (@mocknet_is_testnet (Sample.collaborators Sample.accepting) Sample.argv
           (Sample.with_verbose (Sample.with_broadcast
                                   (Sample.with_network Sample.flags mocknet))));
    reflexivity.
Defined.

(** ** What a run prints *)

Section Output.

Context {ext : Collaborators}.

Lemma report_verbose_hex_line (flags : Flags) (tx : StacksTransaction) (n : StacksNetwork) :
  verbose flags = true ->
  exists rest,
    events (report flags tx n) = Stdout ("Transaction hex: " ++ hex tx) :: rest.
Proof.
  intros Hv. destruct (broadcast flags) eqn:Hb.
  - destruct (broadcastTransaction tx n) as [e|result] eqn:Hr.
    + rewrite (report_broadcast_throws flags tx n e Hb Hr), Hv. simpl. eauto.
    + rewrite (report_broadcast_returns flags tx n result Hb Hr), Hv. simpl. eauto.
  - rewrite (report_verbose_print flags tx n Hv Hb). simpl. eauto.
Qed.

(** C8: a run that succeeds without [--broadcast] and without [--verbose]
    prints one line, the hexadecimal serialization of the transaction the
    builder returned, which is made of the characters [0-9a-f], two for
    each byte. *)
Theorem quiet_print_is_hex_line (argv : list string) (flags : Flags) :
  broadcast flags = false -> verbose flags = false ->
  outcome (run argv flags) = inr tt ->
  exists options tx,
    In (CallSendMany options) (events (run argv flags))
    /\ sendMany options = inr tx
    /\ stdout_of (events (run argv flags)) = [toString_hex (serialize tx)]
    /\ string_forallb is_lower_hex (toString_hex (serialize tx)) = true
    /\ String.length (toString_hex (serialize tx)) = 2 * List.length (serialize tx).
Proof.
  intros Hb Hv.
  destruct (run_progress argv flags) as [e Hmap Hrun | rs n e Hmap Hnet Hsend Hrun
                                        | rs n tx Hmap Hnet Hsend Hrun];
    rewrite Hrun; try discriminate.
  rewrite (report_quiet_print flags tx n Hv Hb). intros _.
  exists (request flags rs n), tx. simpl.
  repeat split; auto using toString_hex_lower, toString_hex_length.
Qed.

(** C9: in a verbose run the labelled hex line comes before the
    submission, whenever there is one, and it is printed as soon as the
    builder has returned its transaction, whether or not the run then
    submits it and whatever the submission does. *)
Theorem verbose_hex_precedes_broadcast (argv : list string) (flags : Flags) :
  verbose flags = true ->
  (forall pre tx n post,
      events (run argv flags) = (pre ++ CallBroadcast tx n :: post)%list ->
      In (Stdout ("Transaction hex: " ++ hex tx)) pre)
  /\ (forall options tx,
        In (CallSendMany options) (events (run argv flags)) ->
        sendMany options = inr tx ->
        In (Stdout ("Transaction hex: " ++ hex tx)) (events (run argv flags))).
Proof.
  intros Hv. split.
  - intros pre tx n post Hsplit.
    assert (In (CallBroadcast tx n) (events (run argv flags))) as Hin
      by (rewrite Hsplit; apply in_elt).
    apply run_broadcast_event in Hin as (rs & _ & _ & _ & _ & Hrun).
    rewrite Hrun in Hsplit. simpl in Hsplit.
    destruct (report_verbose_hex_line flags tx n Hv) as [rest Hrest].
    rewrite Hrest in Hsplit.
    destruct pre as [|p1 [|p2 pre]]; simpl in Hsplit; try discriminate.
    injection Hsplit as _ <- _. right. left. reflexivity.
  - intros options tx Hin Hsend.
    apply run_sendMany_event in Hin as (rs & n & Hmap & Hnet & ->).
    destruct (run_progress argv flags) as [e Hmap' Hrun | rs' n' e Hmap' Hnet' Hsend' Hrun
                                          | rs' n' tx' Hmap' Hnet' Hsend' Hrun].
    + rewrite Hmap in Hmap'. discriminate.
    + rewrite Hmap in Hmap'. injection Hmap' as <-.
      rewrite Hnet in Hnet'. injection Hnet' as <-.
      rewrite Hsend in Hsend'. discriminate.
    + rewrite Hmap in Hmap'. injection Hmap' as <-.
      rewrite Hnet in Hnet'. injection Hnet' as <-.
      rewrite Hsend in Hsend'. injection Hsend' as <-.
      rewrite Hrun. simpl.
      destruct (report_verbose_hex_line flags tx n Hv) as [rest ->].
      right. left. reflexivity.
Qed.

End Output.

(** [<alice>,100 <bob>,50 -k my_private_key]. *)
Lemma quiet_print_is_hex_line_witness :
  stdout_of (events (@run (Sample.collaborators Sample.accepting)
                       Sample.argv Sample.flags)) = ["8000ab1f"].
Proof.
  destruct (@quiet_print_is_hex_line (Sample.collaborators Sample.accepting)
              Sample.argv Sample.flags eq_refl eq_refl eq_refl)
    as (options & tx & _ & _ & Hout & _).
  exact Hout.
Defined.

(** [<alice>,100 <bob>,50 -k my_private_key -b -v] with a node that
    cannot be reached: the hex line stands before the failed
    submission. *)
Lemma verbose_hex_precedes_broadcast_witness :
  let run := @run (Sample.collaborators Sample.unreachable) Sample.argv
               (Sample.with_verbose (Sample.with_broadcast Sample.flags)) in
  outcome run = inl (Error "Failed to broadcast transaction")
  /\ exists pre tx n,
       events run = (pre ++ [CallBroadcast tx n])%list
       /\ In (Stdout "Transaction hex: 8000ab1f") pre.
Proof.
  intros run. split; [reflexivity|].
  assert (exists pre tx n, events run = (pre ++ [CallBroadcast tx n])%list)
    as (pre & tx & n & H)
    by (eexists [_; _]; do 2 eexists; reflexivity).
  exists pre, tx, n. split; [exact H|].
  exact (proj1 (@verbose_hex_precedes_broadcast (Sample.collaborators Sample.unreachable)
                  Sample.argv (Sample.with_verbose (Sample.with_broadcast Sample.flags))
                  eq_refl) pre tx n [] H).
Defined.

(** ** Splitting and joining *)

Lemma split_pieces_without_sep (sep : ascii) (s : string) :
  occurs sep (fst (split sep s)) = false
  /\ Forall (fun piece => occurs sep piece = false) (snd (split sep s)).
Proof.
  induction s as [|c s [IHf IHm]]; simpl.
  - split; [reflexivity | constructor].
  - destruct (split sep s) as [piece more]; simpl in *.
    destruct (Ascii.eqb c sep) eqn:Hc; simpl.
    + split; [reflexivity | constructor; assumption].
    + rewrite Hc, IHf. split; [reflexivity | assumption].
Qed.

(** X1: [split] loses nothing and cuts at every separator.  Joining the
    pieces of a string with the separator gives the string back, no piece
    holds the separator, and splitting the join of separator-free pieces
    gives these pieces back. *)
Theorem split_join_round_trip (sep : ascii) (s first : string) (more : list string) :
  join sep (fst (split sep s)) (snd (split sep s)) = s
  /\ Forall (fun piece => occurs sep piece = false)
            (fst (split sep s) :: snd (split sep s))
  /\ (Forall (fun piece => occurs sep piece = false) (first :: more) ->
      split sep (join sep first more) = (first, more)).
Proof.
  repeat split.
  - induction s as [|c s IH]; simpl; [reflexivity|].
    destruct (split sep s) as [piece more']; simpl in *.
    destruct (Ascii.eqb c sep) eqn:Hc; simpl.
    + apply Ascii.eqb_eq in Hc. subst c. rewrite IH. reflexivity.
    + destruct more' as [|p rest]; simpl in *; rewrite IH; reflexivity.
  - destruct (split_pieces_without_sep sep s). constructor; assumption.
  - revert first. induction more as [|p rest IH]; intros first H; simpl.
    + inversion H; subst. apply split_without_sep. assumption.
    + inversion H as [|? ? Hf Hr]; subst.
      rewrite (split_at_first_sep _ _ _ Hf), (IH p Hr). reflexivity.
Qed.

Lemma split_join_round_trip_witness :
  split "," (join "," "ST2WPFYAW85A0YK9ACJR8JGWPM19VWYF90J8P5ZTH" ["50"; ""])
  = ("ST2WPFYAW85A0YK9ACJR8JGWPM19VWYF90J8P5ZTH", ["50"; ""]).
Proof.
  apply (split_join_round_trip "," "" "ST2WPFYAW85A0YK9ACJR8JGWPM19VWYF90J8P5ZTH"
           ["50"; ""]).
  repeat constructor.
Defined.

(** ** Validation of the tokens *)

Section Validation.

Context {ext : Collaborators}.

Lemma array_map_stops (A B : Type) (f : A -> exn + B) (pre post : list A) (x : A)
    (ys : list B) (e : exn) :
  array_map f pre = inr ys -> f x = inl e ->
  array_map f (pre ++ x :: post) = inl e.
Proof.
  revert ys. induction pre as [|p pre IH]; simpl; intros ys Hpre Hx.
  - rewrite Hx. reflexivity.
  - destruct (f p) as [e'|y]; [discriminate|].
    destruct (array_map f pre) as [e'|ys'] eqn:Hmap; [discriminate|].
    rewrite (IH ys' eq_refl Hx). reflexivity.
Qed.

Lemma recipient_of_arg_returns (arg : string) (r : Recipient) :
  recipient_of_arg arg = inr r ->
  r = recipient_of_pieces arg
  /\ validateStacksAddress (address r) = true
  /\ isNormalInteger (amount r) = true.
Proof.
  unfold recipient_of_arg, recipient_of_pieces.
  destruct (destructure arg) as [a m]; simpl.
  destruct (validateStacksAddress a) eqn:Ha; simpl; [|discriminate].
  destruct (isNormalInteger m) eqn:Hm; simpl; [|discriminate].
  intros H. injection H as <-. auto.
Qed.

Lemma array_map_recipients (argv : list string) (rs : list Recipient) :
  array_map recipient_of_arg argv = inr rs ->
  rs = map recipient_of_pieces argv
  /\ Forall (fun r => validateStacksAddress (address r) = true
                      /\ isNormalInteger (amount r) = true) rs.
Proof.
  revert rs. induction argv as [|arg argv IH]; simpl; intros rs H.
  - injection H as <-. split; [reflexivity | constructor].
  - destruct (recipient_of_arg arg) as [e|r] eqn:Hr; [discriminate|].
    destruct (array_map recipient_of_arg argv) as [e|rs'] eqn:Hmap; [discriminate|].
    injection H as <-.
    destruct (IH rs' eq_refl) as [-> Hall].
    destruct (recipient_of_arg_returns arg r Hr) as (-> & Ha & Hm).
    split; [reflexivity | constructor; auto].
Qed.

Lemma destructure_without_commas (arg : string) :
  occurs "," (fst (destructure arg)) = false
  /\ forall a, snd (destructure arg) = Some a -> occurs "," a = false.
Proof.
  unfold destructure.
  destruct (split_pieces_without_sep "," arg) as [Hf Hm].
  destruct (split "," arg) as [first more]; simpl in *.
  split; [assumption|].
  intros a Ha. destruct more as [|p rest]; simpl in Ha; [discriminate|].
  injection Ha as <-. inversion Hm; assumption.
Qed.

(** X2: a token whose text before the first comma fails the address
    check ends the run with the address error, whatever follows the comma
    (the amount is not looked at) and whatever tokens come after it; the
    run has then done nothing: no output, no call of the builder, no
    submission. *)
Theorem invalid_address_aborts (pre post : list string) (a rest : string)
    (rs : list Recipient) (flags : Flags) :
  array_map recipient_of_arg pre = inr rs ->
  occurs "," a = false ->
  validateStacksAddress a = false ->
  run (pre ++ (a ++ "," ++ rest) :: post) flags
  = ([], inl (Error (a ++ " is not a valid STX address"))).
Proof.
  intros Hpre Ha Hv.
  assert (recipient_of_arg (a ++ "," ++ rest)
          = inl (Error (a ++ " is not a valid STX address"))) as Htok.
  { unfold recipient_of_arg, destructure.
    change (a ++ "," ++ rest) with (a ++ String "," rest).
    rewrite (split_at_first_sep _ _ _ Ha). simpl. rewrite Hv. reflexivity. }
  unfold run. rewrite (array_map_stops _ _ _ pre post _ rs _ Hpre Htok). reflexivity.
Qed.

(** X3: a token with a valid address ends the run with the amount error
    when its second piece fails the integer check; a token without a
    comma has no second piece and is reported as [undefined].  In both
    cases the run has done nothing else. *)
Theorem invalid_amount_aborts (pre post : list string) (a b : string)
    (rs : list Recipient) (flags : Flags) :
  array_map recipient_of_arg pre = inr rs ->
  occurs "," a = false -> occurs "," b = false ->
  validateStacksAddress a = true ->
  (isNormalInteger (Some b) = false ->
   run (pre ++ (a ++ "," ++ b) :: post) flags
   = ([], inl (Error (b ++ " is not a valid integer."))))
  /\ (isNormalInteger None = false ->
      run (pre ++ a :: post) flags
      = ([], inl (Error "undefined is not a valid integer."))).
Proof.
  intros Hpre Ha Hb Hv. split; intros Hi.
  - assert (recipient_of_arg (a ++ "," ++ b)
            = inl (Error (b ++ " is not a valid integer."))) as Htok.
    { unfold recipient_of_arg.
      change (a ++ "," ++ b) with (a ++ String "," b).
      rewrite (destructure_one_comma a b Ha Hb), Hv, Hi. reflexivity. }
    unfold run. rewrite (array_map_stops _ _ _ pre post _ rs _ Hpre Htok). reflexivity.
  - assert (recipient_of_arg a = inl (Error "undefined is not a valid integer."))
      as Htok.
    { unfold recipient_of_arg.
      rewrite (destructure_without_comma a Ha), Hv, Hi. reflexivity. }
    unfold run. rewrite (array_map_stops _ _ _ pre post _ rs _ Hpre Htok). reflexivity.
Qed.

(** X4: the recipients of the request are the tokens, one by one and in
    their order, duplicates kept: each is the pair of pieces of its token,
    and each has passed the address check and the integer check. *)
Theorem recipients_validated (argv : list string) (flags : Flags)
    (options : SendManyOptions) :
  In (CallSendMany options) (events (run argv flags)) ->
  sm_recipients options = map recipient_of_pieces argv
  /\ Forall (fun r => validateStacksAddress (address r) = true
                      /\ isNormalInteger (amount r) = true)
            (sm_recipients options).
Proof.
  intros H. apply run_sendMany_event in H as (rs & n & Hmap & _ & ->). simpl.
  apply array_map_recipients, Hmap.
Qed.

(** X5: no recipient that reaches the builder has a comma in its address
    or in its amount. *)
Theorem recipients_without_commas (argv : list string) (flags : Flags)
    (options : SendManyOptions) (r : Recipient) :
  In (CallSendMany options) (events (run argv flags)) ->
  In r (sm_recipients options) ->
  occurs "," (address r) = false
  /\ forall a, amount r = Some a -> occurs "," a = false.
Proof.
  intros H Hr. apply run_sendMany_event in H as (rs & n & Hmap & _ & ->).
  simpl in Hr. destruct (array_map_recipients argv rs Hmap) as [-> _].
  apply in_map_iff in Hr as (arg & <- & _).
  apply destructure_without_commas.
Qed.

End Validation.

Lemma invalid_address_aborts_witness :
  @run (Sample.collaborators Sample.accepting)
    ([Sample.alice ++ ",100"] ++ ("bogus" ++ "," ++ "-5") :: [Sample.bob ++ ",50"])
    (Sample.with_broadcast Sample.flags)
  = ([], inl (Error "bogus is not a valid STX address")).
Proof.
  apply (@invalid_address_aborts (Sample.collaborators Sample.accepting)
           [Sample.alice ++ ",100"] [Sample.bob ++ ",50"] "bogus" "-5"
           [{| address := Sample.alice; amount := Some "100" |}]);
    reflexivity.
Defined.

Lemma invalid_amount_aborts_witness :
  @run (Sample.collaborators Sample.accepting)
    ([Sample.alice ++ ",100"] ++ (Sample.bob ++ "," ++ "0100") :: [])
    Sample.flags
  = ([], inl (Error "0100 is not a valid integer.")).
Proof.
  apply (@invalid_amount_aborts (Sample.collaborators Sample.accepting)
           [Sample.alice ++ ",100"] [] Sample.bob "0100"
           [{| address := Sample.alice; amount := Some "100" |}]);
    reflexivity.
Defined.

Lemma recipients_validated_witness :
  exists options,
    In (CallSendMany options)
       (events (@run (Sample.collaborators Sample.accepting)
                  [Sample.bob ++ ",50"; Sample.alice ++ ",100"; Sample.bob ++ ",50"]
                  Sample.flags))
    /\ sm_recipients options
       = [{| address := Sample.bob; amount := Some "50" |};
          {| address := Sample.alice; amount := Some "100" |};
          {| address := Sample.bob; amount := Some "50" |}].
Proof.
  assert (exists options,
             In (CallSendMany options)
                (events (@run (Sample.collaborators Sample.accepting)
                           [Sample.bob ++ ",50"; Sample.alice ++ ",100";
                            Sample.bob ++ ",50"]
                           Sample.flags))) as [options H]
    by (eexists; left; reflexivity).
  exists options. split; [exact H|].
  exact (proj1 (@recipients_validated (Sample.collaborators Sample.accepting)
                  _ Sample.flags options H)).
Defined.

Lemma recipients_without_commas_witness :
  occurs "," Sample.alice = false
  /\ forall a, Some "100" = Some a -> occurs "," a = false.
Proof.
  apply (@recipients_without_commas (Sample.collaborators Sample.accepting)
           [Sample.alice ++ ",100,extra"] Sample.flags
           (request Sample.flags [{| address := Sample.alice; amount := Some "100" |}]
              {| chainId := Testnet;
                 coreApiUrl := "https://stacks-node-api.testnet.stacks.co" |})
           {| address := Sample.alice; amount := Some "100" |}).
  - left. reflexivity.
  - left. reflexivity.
Defined.

(** ** From the request to the output *)

Section Pipeline.

Context {ext : Collaborators}.

Lemma run_same_request (argv : list string) (flags : Flags)
    (rs rs' : list Recipient) (n n' : StacksNetwork) :
  array_map recipient_of_arg argv = inr rs ->
  array_map recipient_of_arg argv = inr rs' ->
  resolve_network flags = ret n -> resolve_network flags = ret n' ->
  rs = rs' /\ n = n'.
Proof.
  intros H1 H2 H3 H4. rewrite H1 in H2. rewrite H3 in H4.
  injection H2 as <-. injection H4 as <-. auto.
Qed.

(** X6: a submission is made with the transaction the builder returned
    for the request of this run, to the very network object the request
    holds; the request is signed for with the [--privateKey] given. *)
Theorem broadcast_uses_assembled_tx (argv : list string) (flags : Flags)
    (tx : StacksTransaction) (n : StacksNetwork) :
  In (CallBroadcast tx n) (events (run argv flags)) ->
  exists options post,
    events (run argv flags) = CallSendMany options :: post
    /\ sendMany options = inr tx
    /\ sm_network options = n
    /\ sm_senderKey options = privateKey flags
    /\ broadcast flags = true.
Proof.
  intros H. apply run_broadcast_event in H as (rs & _ & _ & Hsend & Hb & Hrun).
  exists (request flags rs n), (events (report flags tx n)).
  rewrite Hrun. auto.
Qed.

(** X7: when the builder throws, the run fails with the error thrown,
    unchanged; it prints nothing and submits nothing. *)
Theorem builder_failure_aborts (argv : list string) (flags : Flags)
    (options : SendManyOptions) (e : exn) :
  In (CallSendMany options) (events (run argv flags)) ->
  sendMany options = inl e ->
  run argv flags = ([CallSendMany options], inl e).
Proof.
  intros Hin Hsend.
  apply run_sendMany_event in Hin as (rs & n & Hmap & Hnet & ->).
  destruct (run_progress argv flags) as [e' Hmap' Hrun | rs' n' e' Hmap' Hnet' Hsend' Hrun
                                        | rs' n' tx' Hmap' Hnet' Hsend' Hrun].
  - rewrite Hmap in Hmap'. discriminate.
  - destruct (run_same_request _ _ _ _ _ _ Hmap Hmap' Hnet Hnet') as [<- <-].
    rewrite Hsend in Hsend'. injection Hsend' as <-. exact Hrun.
  - destruct (run_same_request _ _ _ _ _ _ Hmap Hmap' Hnet Hnet') as [<- <-].
    rewrite Hsend in Hsend'. discriminate.
Qed.

(** X8: a verbose run without [--broadcast] that succeeds prints two
    lines: the labelled hex line, then the bare hex line a quiet run
    prints. *)
Theorem verbose_print_two_lines (argv : list string) (flags : Flags) :
  verbose flags = true -> broadcast flags = false ->
  outcome (run argv flags) = inr tt ->
  exists options tx,
    events (run argv flags)
    = [CallSendMany options;
       Stdout ("Transaction hex: " ++ toString_hex (serialize tx));
       Stdout (toString_hex (serialize tx))]
    /\ sendMany options = inr tx.
Proof.
  intros Hv Hb.
  destruct (run_progress argv flags) as [e Hmap Hrun | rs n e Hmap Hnet Hsend Hrun
                                        | rs n tx Hmap Hnet Hsend Hrun];
    rewrite Hrun; try discriminate.
  rewrite (report_verbose_print flags tx n Hv Hb). intros _.
  exists (request flags rs n), tx. auto.
Qed.

(** X9: when the node returns a transaction identifier, the run succeeds.
    A quiet run prints the identifier alone; a verbose run prints the hex
    line, the labelled identifier and the explorer link of the
    identifier, whose [chain] is [mainnet] on the production chain and
    [testnet] otherwise. *)
Theorem broadcast_success_output (argv : list string) (flags : Flags)
    (tx : StacksTransaction) (n : StacksNetwork) (txid : string) :
  In (CallBroadcast tx n) (events (run argv flags)) ->
  broadcastTransaction tx n = inr (TxId txid) ->
  outcome (run argv flags) = inr tt
  /\ stdout_of (events (run argv flags))
     = if verbose flags then
         ["Transaction hex: " ++ toString_hex (serialize tx);
          "Transaction ID: " ++ txid;
          "View in explorer: https://explorer.stacks.co/txid/0x" ++ txid
            ++ match chainId n with
               | Mainnet => "?chain=mainnet"
               | Testnet => "?chain=testnet"
               end]
       else [txid].
Proof.
  intros Hin Hr.
  apply run_broadcast_event in Hin as (rs & _ & _ & _ & Hb & ->).
  rewrite (report_broadcast_returns flags tx n _ Hb Hr).
  split; [reflexivity|].
  destruct (verbose flags); [|reflexivity].
  destruct (chainId n); reflexivity.
Qed.

(** X10: without [--broadcast] nothing is submitted to a node. *)
Theorem no_broadcast_without_flag (argv : list string) (flags : Flags) :
  broadcast flags = false ->
  broadcasts_of (events (run argv flags)) = 0
  /\ forall tx n, ~ In (CallBroadcast tx n) (events (run argv flags)).
Proof.
  intros Hb. split.
  - destruct (run_progress argv flags) as [e Hmap Hrun | rs n e Hmap Hnet Hsend Hrun
                                          | rs n tx Hmap Hnet Hsend Hrun];
      rewrite Hrun; try reflexivity.
    destruct (verbose flags) eqn:Hv.
    + rewrite (report_verbose_print flags tx n Hv Hb). reflexivity.
    + rewrite (report_quiet_print flags tx n Hv Hb). reflexivity.
  - intros tx n H. apply run_broadcast_event in H as (_ & _ & _ & _ & Hb' & _).
    rewrite Hb in Hb'. discriminate.
Qed.

(** X11: every run calls the builder at most once and submits at most
    once, and it submits only after it has called the builder. *)
Theorem calls_at_most_once (argv : list string) (flags : Flags) :
  sendManys_of (events (run argv flags)) <= 1
  /\ broadcasts_of (events (run argv flags)) <= sendManys_of (events (run argv flags)).
Proof.
  destruct (run_progress argv flags) as [e Hmap Hrun | rs n e Hmap Hnet Hsend Hrun
                                        | rs n tx Hmap Hnet Hsend Hrun];
    rewrite Hrun; simpl; try lia.
  destruct (broadcast flags) eqn:Hb.
  - destruct (broadcastTransaction tx n) as [e|result] eqn:Hr.
    + rewrite (report_broadcast_throws flags tx n e Hb Hr).
      destruct (verbose flags); simpl; lia.
    + rewrite (report_broadcast_returns flags tx n result Hb Hr).
      destruct (verbose flags); simpl; lia.
  - destruct (verbose flags) eqn:Hv.
    + rewrite (report_verbose_print flags tx n Hv Hb). simpl. lia.
    + rewrite (report_quiet_print flags tx n Hv Hb). simpl. lia.
Qed.

End Pipeline.

Section Outcome.

Context {ext : Collaborators}.

(** X12: the endpoint of the network object that reaches the builder and
    the node is the [--nodeUrl] given, when one is given and it is not
    the empty string, and the default endpoint of the named network
    otherwise: an empty [--nodeUrl] is ignored. *)
Theorem endpoint_of_run (argv : list string) (flags : Flags) :
  let endpoint :=
    match nodeUrl flags with
    | Some (String c url) => String c url
    | Some EmptyString | None => defaultCoreApiUrl (network flags)
    end in
  (forall options, In (CallSendMany options) (events (run argv flags)) ->
                   coreApiUrl (sm_network options) = endpoint)
  /\ (forall tx n, In (CallBroadcast tx n) (events (run argv flags)) ->
                   coreApiUrl n = endpoint).
Proof.
  intros endpoint.
  assert (forall n, resolve_network flags = ret n -> coreApiUrl n = endpoint) as Hend.
  { intros n Hn. destruct (resolve_network_returns flags) as (p & Hp & Hn').
    rewrite Hn in Hn'. injection Hn' as ->.
    assert (coreApiUrl p = defaultCoreApiUrl (network flags)) as Hd
      by (destruct (network flags); injection Hp as <-; reflexivity).
    unfold endpoint. destruct (nodeUrl flags) as [[|c url]|]; simpl; auto. }
  split.
  - intros options H. apply run_sendMany_event in H as (rs & n & _ & Hn & ->).
    exact (Hend n Hn).
  - intros tx n H. apply run_broadcast_event in H as (rs & _ & Hn & _).
    exact (Hend n Hn).
Qed.

(** X13: a run that fails has printed no result.  Its output is empty,
    but for the labelled hex line of a verbose run whose submission
    threw. *)
Theorem failed_run_output (argv : list string) (flags : Flags) (e : exn) :
  outcome (run argv flags) = inl e ->
  stdout_of (events (run argv flags)) = []
  \/ (verbose flags = true /\ broadcast flags = true
      /\ exists tx n,
           broadcastTransaction tx n = inl e
           /\ stdout_of (events (run argv flags))
              = ["Transaction hex: " ++ toString_hex (serialize tx)]).
Proof.
  destruct (run_progress argv flags) as [e' Hmap Hrun | rs n e' Hmap Hnet Hsend Hrun
                                        | rs n tx Hmap Hnet Hsend Hrun];
    rewrite Hrun; simpl; auto.
  destruct (broadcast flags) eqn:Hb.
  - destruct (broadcastTransaction tx n) as [e'|result] eqn:Hr.
    + rewrite (report_broadcast_throws flags tx n e' Hb Hr). simpl.
      intros H. injection H as ->.
      destruct (verbose flags); simpl; [right | left; reflexivity].
      repeat split. exists tx, n. auto.
    + rewrite (report_broadcast_returns flags tx n result Hb Hr). discriminate.
  - destruct (verbose flags) eqn:Hv.
    + rewrite (report_verbose_print flags tx n Hv Hb). discriminate.
    + rewrite (report_quiet_print flags tx n Hv Hb). discriminate.
Qed.

(** X14: a run succeeds exactly when every token passes the checks, the
    builder returns a transaction and, with [--broadcast], the submission
    returns (a transaction identifier or an error payload) rather than
    throws. *)
Theorem run_succeeds_iff (argv : list string) (flags : Flags) :
  outcome (run argv flags) = inr tt <->
  exists rs n tx,
    array_map recipient_of_arg argv = inr rs
    /\ resolve_network flags = ret n
    /\ sendMany (request flags rs n) = inr tx
    /\ (broadcast flags = true -> exists result, broadcastTransaction tx n = inr result).
Proof.
  split.
  - destruct (run_progress argv flags) as [e Hmap Hrun | rs n e Hmap Hnet Hsend Hrun
                                          | rs n tx Hmap Hnet Hsend Hrun];
      rewrite Hrun; try discriminate.
    intros Hok. exists rs, n, tx. repeat split; try assumption.
    intros Hb. destruct (broadcastTransaction tx n) as [e|result] eqn:Hr; [|eauto].
    rewrite (report_broadcast_throws flags tx n e Hb Hr) in Hok. discriminate.
  - intros (rs & n & tx & Hmap & Hnet & Hsend & Hsub).
    destruct (run_progress argv flags) as [e Hmap' Hrun | rs' n' e Hmap' Hnet' Hsend' Hrun
                                          | rs' n' tx' Hmap' Hnet' Hsend' Hrun].
    + rewrite Hmap in Hmap'. discriminate.
    + destruct (run_same_request _ _ _ _ _ _ Hmap Hmap' Hnet Hnet') as [<- <-].
      rewrite Hsend in Hsend'. discriminate.
    + destruct (run_same_request _ _ _ _ _ _ Hmap Hmap' Hnet Hnet') as [<- <-].
      rewrite Hsend in Hsend'. injection Hsend' as <-. rewrite Hrun.
      destruct (broadcast flags) eqn:Hb.
      * destruct (Hsub eq_refl) as [result Hr].
        rewrite (report_broadcast_returns flags tx n result Hb Hr). reflexivity.
      * destruct (verbose flags) eqn:Hv.
        -- rewrite (report_verbose_print flags tx n Hv Hb). reflexivity.
        -- rewrite (report_quiet_print flags tx n Hv Hb). reflexivity.
Qed.

End Outcome.

(** ** The hex line *)

Lemma hex_digit_injective_nat (j k : nat) :
  (j < 16)%nat -> (k < 16)%nat ->
  hex_digit (N.of_nat j) = hex_digit (N.of_nat k) -> j = k.
Proof.
  intros Hj Hk.
  do 16 (destruct j as [|j];
         [do 16 (destruct k as [|k];
                 [intros H; try reflexivity; cbv in H; discriminate H|]); lia|]).
  lia.
Qed.

Lemma hex_digit_injective (n m : N) :
  (n < 16)%N -> (m < 16)%N -> hex_digit n = hex_digit m -> n = m.
Proof.
  intros Hn Hm H.
  rewrite <- (N2Nat.id n), <- (N2Nat.id m) in H.
  apply hex_digit_injective_nat in H; lia.
Qed.

Lemma byte_of_hex_digits (x y : byte) :
  hex_digit (Byte.to_N x / 16) = hex_digit (Byte.to_N y / 16) ->
  hex_digit (Byte.to_N x mod 16) = hex_digit (Byte.to_N y mod 16) ->
  x = y.
Proof.
  intros Hhi Hlo.
  pose proof (Byte.to_N_bounded x) as Hx. pose proof (Byte.to_N_bounded y) as Hy.
  apply hex_digit_injective in Hhi;
    [| apply N.Div0.div_lt_upper_bound; lia | apply N.Div0.div_lt_upper_bound; lia].
  apply hex_digit_injective in Hlo; [| apply N.mod_lt; lia | apply N.mod_lt; lia].
  assert (Byte.to_N x = Byte.to_N y) as Heq.
  { rewrite (N.div_mod' (Byte.to_N x) 16), (N.div_mod' (Byte.to_N y) 16), Hhi, Hlo.
    reflexivity. }
  pose proof (Byte.of_to_N x) as Ex. pose proof (Byte.of_to_N y) as Ey.
  rewrite Heq in Ex. rewrite Ex in Ey. injection Ey as ->. reflexivity.
Qed.

(** X15: the hex line determines the serialized transaction: two byte
    sequences with the same hex text are the same sequence. *)
Theorem toString_hex_injective (buf buf' : list byte) :
  toString_hex buf = toString_hex buf' -> buf = buf'.
Proof.
  revert buf'. induction buf as [|b buf IH]; intros [|b' buf'] H; simpl in H;
    try discriminate; [reflexivity|].
  injection H as Hhi Hlo Hrest.
  rewrite (byte_of_hex_digits b b' Hhi Hlo), (IH buf' Hrest). reflexivity.
Qed.

(** ** Concrete runs *)

(** [<alice>,100 <bob>,50 -k my_private_key -b -v -u http://localhost:20443]
    with a node that accepts the transaction. *)
Lemma broadcast_uses_assembled_tx_witness :
  let flags := with_nodeUrl (Sample.with_verbose (Sample.with_broadcast Sample.flags))
                 (Some "http://localhost:20443") in
  let run := @run (Sample.collaborators Sample.accepting) Sample.argv flags in
  exists tx n options post,
    In (CallBroadcast tx n) (events run)
    /\ events run = CallSendMany options :: post
    /\ sm_network options = n
    /\ sm_senderKey options = "my_private_key".
Proof.
  intros flags run.
  assert (exists tx n, In (CallBroadcast tx n) (events run)) as (tx & n & H)
    by (do 2 eexists; right; right; left; reflexivity).
  destruct (@broadcast_uses_assembled_tx (Sample.collaborators Sample.accepting)
              Sample.argv flags tx n H)
    as (options & post & Hev & _ & Hn & Hk & _).
  exists tx, n, options, post. auto.
Defined.

Lemma builder_failure_aborts_witness :
  let options := request (Sample.with_broadcast Sample.flags)
                   [{| address := Sample.alice; amount := Some "100" |}]
                   {| chainId := Testnet; coreApiUrl := "http://localhost:3999" |} in
  @run collaborators_builder_fails [Sample.alice ++ ",100"]
    (Sample.with_broadcast Sample.flags)
  = ([CallSendMany options], inl (Error "Improperly formatted private-key")).
Proof.
  intros options.
  apply (@builder_failure_aborts collaborators_builder_fails
           [Sample.alice ++ ",100"] (Sample.with_broadcast Sample.flags) options).
  - left. reflexivity.
  - reflexivity.
Defined.

Lemma verbose_print_two_lines_witness :
  stdout_of (events (@run (Sample.collaborators Sample.accepting) Sample.argv
                       (Sample.with_verbose Sample.flags)))
  = ["Transaction hex: 8000ab1f"; "8000ab1f"].
Proof.
  destruct (@verbose_print_two_lines (Sample.collaborators Sample.accepting)
              Sample.argv (Sample.with_verbose Sample.flags) eq_refl eq_refl eq_refl)
    as (options & tx & Hev & _).
  rewrite Hev. reflexivity.
Defined.

(** [<alice>,100 <bob>,50 -k my_private_key -n mainnet -b -v]. *)
Lemma broadcast_success_output_witness :
  let flags := Sample.with_verbose (Sample.with_broadcast
                                      (Sample.with_network Sample.flags mainnet)) in
  stdout_of (events (@run (Sample.collaborators Sample.accepting) Sample.argv flags))
  = ["Transaction hex: 8000ab1f";
     "Transaction ID: 5e0a2c7f";
     "View in explorer: https://explorer.stacks.co/txid/0x5e0a2c7f?chain=mainnet"].
Proof.
  intros flags.
  assert (exists tx n,
             In (CallBroadcast tx n)
                (events (@run (Sample.collaborators Sample.accepting) Sample.argv flags))
             /\ chainId n = Mainnet) as (tx & n & H & Hn)
    by (do 2 eexists; split; [right; right; left; reflexivity | reflexivity]).
  destruct (@broadcast_success_output (Sample.collaborators Sample.accepting)
              Sample.argv flags tx n "5e0a2c7f" H eq_refl) as [_ Hout].
  rewrite Hout, Hn. reflexivity.
Defined.

Lemma no_broadcast_without_flag_witness :
  broadcasts_of (events (@run (Sample.collaborators Sample.unreachable) Sample.argv
                           (Sample.with_verbose Sample.flags))) = 0.
Proof.
  exact (proj1 (@no_broadcast_without_flag (Sample.collaborators Sample.unreachable)
                  Sample.argv (Sample.with_verbose Sample.flags) eq_refl)).
Defined.

(** [-u ''] leaves the default endpoint of the network in place. *)
Lemma endpoint_of_run_witness :
  let flags := with_nodeUrl Sample.flags (Some "") in
  exists options,
    In (CallSendMany options)
       (events (@run (Sample.collaborators Sample.accepting) Sample.argv flags))
    /\ coreApiUrl (sm_network options) = "https://stacks-node-api.testnet.stacks.co".
Proof.
  intros flags.
  assert (exists options,
             In (CallSendMany options)
                (events (@run (Sample.collaborators Sample.accepting)
                           Sample.argv flags))) as [options H]
    by (eexists; left; reflexivity).
  exists options. split; [exact H|].
  exact (proj1 (@endpoint_of_run (Sample.collaborators Sample.accepting)
                  Sample.argv flags) options H).
Defined.

Lemma failed_run_output_witness :
  stdout_of (events (@run (Sample.collaborators Sample.unreachable) Sample.argv
                       (Sample.with_broadcast Sample.flags))) = [].
Proof.
  destruct (@failed_run_output (Sample.collaborators Sample.unreachable) Sample.argv
              (Sample.with_broadcast Sample.flags)
              (Error "Failed to broadcast transaction") eq_refl)
    as [H | (Hv & _)]; [exact H | discriminate Hv].
Defined.

Lemma run_succeeds_iff_witness :
  exists rs n tx,
    array_map (@recipient_of_arg (Sample.collaborators Sample.rejecting)) Sample.argv
    = inr rs
    /\ @resolve_network (Sample.collaborators Sample.rejecting)
         (Sample.with_broadcast Sample.flags) = ret n
    /\ @sendMany (Sample.collaborators Sample.rejecting)
         (request (Sample.with_broadcast Sample.flags) rs n) = inr tx.
Proof.
  destruct (proj1 (@run_succeeds_iff (Sample.collaborators Sample.rejecting)
                     Sample.argv (Sample.with_broadcast Sample.flags)) eq_refl)
    as (rs & n & tx & Hmap & Hnet & Hsend & _).
  exists rs, n, tx. auto.
Defined.

Lemma toString_hex_injective_witness :
  [x80; x00; xab; x1f] = [x80; x00; xab; x1f].
Proof.
  apply (toString_hex_injective [x80; x00; xab; x1f] [x80; x00; xab; x1f]).
  reflexivity.
Defined.
